(** * Consultor DNI: the gateway of [main.py], embedded and verified

    The development follows [main.py] top-down: Python strings and the
    [str.isdigit] predicate, the process configuration, the objects of the
    HTTP client ([httpx]), the handlers [verificar_api_key], [consultar_dni]
    and [consultar_lote], and the semaphore-gated fan-out of the batch
    handler as a transition system over scheduler events. *)

From Stdlib Require Import String Ascii ZArith NArith List Lia.
From stdpp Require Import base tactics option list.

Open Scope nat_scope.

(** ** Python strings *)

Module Py.

(** A [str] is a sequence of Unicode code points; [len] counts code points. *)
Definition str := list N.

(** The code points of an ASCII literal. *)
Fixpoint lit (s : string) : str :=
  match s with
  | EmptyString => []
  | String a r => N_of_ascii a :: lit r
  end.

Definition len (s : str) : nat := length s.

(** Truth value of a string: the empty string is falsy. *)
Definition truthy (s : str) : bool :=
  match s with
  | [] => false
  | _ :: _ => true
  end.

Definition char_eqb : N -> N -> bool := N.eqb.

Fixpoint eqb (s t : str) : bool :=
  match s, t with
  | [], [] => true
  | a :: s', b :: t' => char_eqb a b && eqb s' t'
  | _, _ => false
  end.

(** The code points for which [str.isdigit] holds: the characters whose
    Unicode Numeric_Type is Decimal or Digit (Unicode 14 table, as closed
    ranges, ascending). *)
Definition digit_ranges : list (N * N) :=
  [ (48, 57); (178, 179); (185, 185); (1632, 1641); (1776, 1785);
    (1984, 1993); (2406, 2415); (2534, 2543); (2662, 2671); (2790, 2799);
    (2918, 2927); (3046, 3055); (3174, 3183); (3302, 3311); (3430, 3439);
    (3558, 3567); (3664, 3673); (3792, 3801); (3872, 3881); (4160, 4169);
    (4240, 4249); (4969, 4977); (6112, 6121); (6160, 6169); (6470, 6479);
    (6608, 6618); (6784, 6793); (6800, 6809); (6992, 7001); (7088, 7097);
    (7232, 7241); (7248, 7257); (8304, 8304); (8308, 8313); (8320, 8329);
    (9312, 9320); (9332, 9340); (9352, 9360); (9450, 9450); (9461, 9469);
    (9471, 9471); (10102, 10110); (10112, 10120); (10122, 10130);
    (42528, 42537); (43216, 43225); (43264, 43273); (43472, 43481);
    (43504, 43513); (43600, 43609); (44016, 44025); (65296, 65305);
    (66720, 66729); (68160, 68163); (68912, 68921); (69216, 69224);
    (69714, 69722); (69734, 69743); (69872, 69881); (69942, 69951);
    (70096, 70105); (70384, 70393); (70736, 70745); (70864, 70873);
    (71248, 71257); (71360, 71369); (71472, 71481); (71904, 71913);
    (72016, 72025); (72784, 72793); (73040, 73049); (73120, 73129);
    (92768, 92777); (92864, 92873); (93008, 93017); (120782, 120831);
    (123200, 123209); (123632, 123641); (125264, 125273);
    (127232, 127242); (130032, 130041) ]%N.

Definition in_range (c : N) (r : N * N) : bool :=
  ((fst r <=? c) && (c <=? snd r))%N.

Definition char_isdigit (c : N) : bool := existsb (in_range c) digit_ranges.

(** [s.isdigit()]: every character is a digit and there is at least one. *)
Definition isdigit (s : str) : bool := truthy s && forallb char_isdigit s.

(** The ASCII decimal digits '0' .. '9'. *)
Definition ascii_decimal (c : N) : bool := ((48 <=? c) && (c <=? 57))%N.

Definition is_ascii (c : N) : bool := (c <? 128)%N.

End Py.

Arguments Py.lit s%_string.

(** ** The lexical check on a key

    [main.py] writes the check inline, once in [consultar_dni] (line 56) and
    once per key in [consultar_lote] (line 92):
    [not d.isdigit() or len(d) != 8]. *)

Definition dni_invalido (d : Py.str) : bool :=
  negb (Py.isdigit d) || negb (Py.len d =? 8).

Definition dni_valido (d : Py.str) : bool := negb (dni_invalido d).

(** The keys of a batch that fail the check, in input order (line 92). *)
Definition invalidos (dnis : list Py.str) : list Py.str :=
  filter (fun d => dni_invalido d = true) dnis.

(** ** Configuration (lines 17-20) *)

Record config := Config {
  SEEKER_TOKEN : Py.str;   (* os.getenv("SEEKER_TOKEN", "") *)
  API_KEY : Py.str         (* os.getenv("API_KEY", "") *)
}.

Definition API_URL : Py.str := Py.lit "https://seeker.red/personas/apiBasico/dni".
Definition TIMEOUT : Z := 15.

(** ** The HTTP client *)

(** An opaque JSON document. *)
#[local] Set Warnings "-register-all".
Inductive json :=
| JNull
| JBool (b : bool)
| JNum (lexeme : Py.str)
| JStr (s : Py.str)
| JArr (l : list json)
| JObj (l : list (Py.str * json)).

(** The arguments of one [client.post] call. *)
Record request := Request {
  req_url : Py.str;
  req_authorization : Py.str;
  req_content_type : Py.str;
  req_data_dni : Py.str;
  req_timeout : Z
}.

(** What the handlers read of an [httpx] response: the status code, the body
    text, what [response.json()] gives (the document, or the message of the
    decoding error it raises), and the message [httpx] puts in the
    [HTTPStatusError] of this response. *)
Record response := Response {
  status_code : Z;
  text : Py.str;
  json_body : json + Py.str;
  status_error : Py.str
}.

(** The exceptions of the model, all subclasses of [Exception]. *)
Inductive exn :=
| HTTPStatusError (msg : Py.str) (status : Z) (body : Py.str)
| RequestError (msg : Py.str)
| OtherException (msg : Py.str).

(** [str(e)] *)
Definition exn_str (e : exn) : Py.str :=
  match e with
  | HTTPStatusError msg _ _ => msg
  | RequestError msg => msg
  | OtherException msg => msg
  end.

(** A computation that returns or raises. *)
Inductive result (A : Type) :=
| Ok (a : A)
| Raise (e : exn).
Arguments Ok {A} a.
Arguments Raise {A} e.

Definition bind {A B : Type} (c : result A) (k : A -> result B) : result B :=
  match c with
  | Ok a => k a
  | Raise e => Raise e
  end.

Notation "x <- c ;; k" := (bind c (fun x => k))
  (at level 100, c at next level, right associativity).

(** The upstream provider as seen through [client.post]: every request is
    answered by a response or by an exception (transport failure, timeout). *)
Definition upstream := request -> result response.

Definition is_success (r : response) : bool :=
  ((200 <=? status_code r) && (status_code r <=? 299))%Z.

(** [response.raise_for_status()] *)
Definition raise_for_status (r : response) : result unit :=
  if is_success r then Ok tt
  else Raise (HTTPStatusError (status_error r) (status_code r) (text r)).

(** [response.json()] *)
Definition response_json (r : response) : result json :=
  match json_body r with
  | inl doc => Ok doc
  | inr msg => Raise (OtherException msg)
  end.

(** The request both handlers build for a key (lines 64-72 and 101-109). *)
Definition peticion (cfg : config) (dni : Py.str) : request :=
  {| req_url := API_URL;
     req_authorization := Py.lit "Bearer " ++ SEEKER_TOKEN cfg;
     req_content_type := Py.lit "application/x-www-form-urlencoded";
     req_data_dni := dni;
     req_timeout := TIMEOUT |}.

(** ** Handlers *)

(** The [detail] of an [HTTPException]: a text, or an f-string that ends in
    the rendering of a list of strings. *)
Inductive detail :=
| Texto (s : Py.str)
| TextoLista (s : Py.str) (l : list Py.str).

Record HTTPException := HTTPExc {
  exc_status : Z;
  exc_detail : detail
}.

(** How a handler ends: it returns, raises an [HTTPException], or lets
    another exception through. *)
Inductive outcome (A : Type) :=
| Returns (a : A)
| Raises (e : HTTPException)
| Propagates (e : exn).
Arguments Returns {A} a.
Arguments Raises {A} e.
Arguments Propagates {A} e.

(** [verificar_api_key] (lines 37-40): [None] when the gate lets the
    request through. *)
Definition verificar_api_key (cfg : config) (x_api_key : option Py.str)
  : option HTTPException :=
  let differs :=
    match x_api_key with
    | Some k => negb (Py.eqb k (API_KEY cfg))
    | None => true
    end in
  if Py.truthy (API_KEY cfg) && differs
  then Some (HTTPExc 401 (Texto (Py.lit "API Key inv" ++ [225%N] ++ Py.lit "lida o ausente")))
  else None.

(** [consultar_dni] (lines 53-82), with the requests it sent upstream. *)
Definition consultar_dni (cfg : config) (client : upstream) (dni : Py.str)
  : outcome json * list request :=
  if dni_invalido dni then
    (Raises (HTTPExc 400 (Texto (Py.lit "DNI debe tener exactamente 8 d"
                                  ++ [237%N] ++ Py.lit "gitos"))), [])
  else if negb (Py.truthy (SEEKER_TOKEN cfg)) then
    (Raises (HTTPExc 500 (Texto (Py.lit "SEEKER_TOKEN no configurado en Railway"))), [])
  else
    let req := peticion cfg dni in
    (match (response <- client req ;;
            _ <- raise_for_status response ;;
            response_json response) with
     | Ok doc => Returns doc
     | Raise (HTTPStatusError _ status body) =>
         Raises (HTTPExc status (Texto (Py.lit "Error de seeker.red: " ++ body)))
     | Raise (RequestError msg) =>
         Raises (HTTPExc 503 (Texto (Py.lit "Error de conexi" ++ [243%N]
                                       ++ Py.lit "n: " ++ msg)))
     | Raise e => Propagates e
     end, [req]).

(** One entry of [resultados]. *)
Inductive item :=
| ItemOk (dni : Py.str) (data : json)
| ItemError (dni : Py.str) (detalle : Py.str).

Definition item_dni (it : item) : Py.str :=
  match it with
  | ItemOk d _ => d
  | ItemError d _ => d
  end.

Definition item_status (it : item) : Py.str :=
  match it with
  | ItemOk _ _ => Py.lit "ok"
  | ItemError _ _ => Py.lit "error"
  end.

(** The body of [consultar_uno] under the semaphore (lines 100-113), given
    how the provider answers this task's request. *)
Definition consultar_uno (cfg : config) (client : upstream) (dni : Py.str) : item :=
  match (response <- client (peticion cfg dni) ;;
         _ <- raise_for_status response ;;
         data <- response_json response ;;
         Ok (ItemOk dni data)) with
  | Ok it => it
  | Raise e => ItemError dni (exn_str e)
  end.

(** ** The batch handler

    [asyncio.gather] runs one [consultar_uno] task per key on one event
    loop.  A task suspends at two places only: entering
    [async with semaforo], and awaiting [client.post].  Between them no
    other task runs, so one batch is a sequence of two kinds of events. *)

(** Where task [i] stands. *)
Inductive tarea :=
| Esperando              (* not yet through [async with semaforo] *)
| EnVuelo                (* holds a slot, awaits [client.post] *)
| Terminada (it : item). (* returned its entry, slot released *)

Inductive event :=
| Acquire (i : nat)      (* task [i] takes a slot and sends its request *)
| Reply (i : nat).       (* the answer to task [i] arrives; it finishes *)

Record state := State {
  semaforo : nat;            (* the value of the semaphore: free slots *)
  tareas : list tarea;       (* one per key, by position *)
  llamadas : list request    (* the requests sent so far, oldest first *)
}.

(** [asyncio.Semaphore(value)] and the tasks of line 116, none started. *)
Definition inicial (value : nat) (dnis : list Py.str) : state :=
  {| semaforo := value;
     tareas := (fun _ => Esperando) <$> dnis;
     llamadas := [] |}.

Definition is_en_vuelo (t : tarea) : nat :=
  match t with
  | EnVuelo => 1
  | _ => 0
  end.

(** The number of upstream calls in progress. *)
Definition en_vuelo (s : state) : nat := sum_list (is_en_vuelo <$> tareas s).

Section Lote.

Variable cfg : config.
(** How the provider answers the request of the task at each position. *)
Variable clients : nat -> upstream.
Variable dnis : list Py.str.

(** One event.  Any waiting task may take a free slot: the order in which
    the event loop lets the tasks through (input order, waiters first-in
    first-out) is one of the orders allowed here, so what holds of every
    schedule holds of the program's. *)
Definition step (s : state) (e : event) : option state :=
  match e with
  | Acquire i =>
      match tareas s !! i, dnis !! i, semaforo s with
      | Some Esperando, Some dni, S free =>
          Some {| semaforo := free;
                  tareas := <[i := EnVuelo]> (tareas s);
                  llamadas := llamadas s ++ [peticion cfg dni] |}
      | _, _, _ => None
      end
  | Reply i =>
      match tareas s !! i, dnis !! i with
      | Some EnVuelo, Some dni =>
          Some {| semaforo := S (semaforo s);
                  tareas := <[i := Terminada (consultar_uno cfg (clients i) dni)]> (tareas s);
                  llamadas := llamadas s |}
      | _, _ => None
      end
  end.

(** Runs a schedule; [None] when an event of it cannot happen. *)
Fixpoint run (s : state) (evs : list event) : option state :=
  match evs with
  | [] => Some s
  | e :: evs' =>
      match step s e with
      | Some s' => run s' evs'
      | None => None
      end
  end.

End Lote.

Definition terminada (t : tarea) : option item :=
  match t with
  | Terminada it => Some it
  | _ => None
  end.

(** What awaiting [asyncio.gather] on [tareas] gives once every task has
    returned: the entries by position.  [None] while a task is pending. *)
Definition gather (ts : list tarea) : option (list item) := mapM terminada ts.

(** The body of the batch response (line 119). *)
Record lote := Lote {
  total : nat;
  resultados : list item
}.

(** [consultar_lote] (lines 86-119) under the schedule [evs], with the
    requests it sent upstream.  [None] when [evs] is not a complete
    execution of the fan-out; a rejected call consumes no event. *)
Definition consultar_lote (cfg : config) (clients : nat -> upstream)
    (dnis : list Py.str) (evs : list event)
  : option (outcome lote * list request) :=
  if 20 <? length dnis then
    Some (Raises (HTTPExc 400 (Texto (Py.lit "M" ++ [225%N]
                                        ++ Py.lit "ximo 20 DNIs por lote"))), [])
  else
    match invalidos dnis with
    | _ :: _ =>
        Some (Raises (HTTPExc 400 (TextoLista (Py.lit "DNIs inv" ++ [225%N]
                                                 ++ Py.lit "lidos: ")
                                              (invalidos dnis))), [])
    | [] =>
        s ← run cfg clients dnis (inicial 5 dnis) evs;
        res ← gather (tareas s);
        Some (Returns {| total := length res; resultados := res |}, llamadas s)
    end.

(** The keys that reach the fan-out: within the cap and all well-formed. *)
Definition aceptado (dnis : list Py.str) : bool :=
  negb (20 <? length dnis) && forallb dni_valido dnis.

(** The routes with their dependency (lines 52 and 85): the gate runs
    before the handler. *)
Definition ruta_dni (cfg : config) (x_api_key : option Py.str)
    (client : upstream) (dni : Py.str) : outcome json * list request :=
  match verificar_api_key cfg x_api_key with
  | Some e => (Raises e, [])
  | None => consultar_dni cfg client dni
  end.

Definition ruta_lote (cfg : config) (x_api_key : option Py.str)
    (clients : nat -> upstream) (dnis : list Py.str) (evs : list event)
  : option (outcome lote * list request) :=
  match verificar_api_key cfg x_api_key with
  | Some e => Some (Raises e, [])
  | None => consultar_lote cfg clients dnis evs
  end.

(** The work a state still owes: two events per waiting task, one per
    task in flight. *)
Definition peso (t : tarea) : nat :=
  match t with
  | Esperando => 2
  | EnVuelo => 1
  | Terminada _ => 0
  end.

Definition pendiente (s : state) : nat := sum_list (peso <$> tareas s).

(** Task counts by stage. *)
Definition is_terminada (t : tarea) : nat :=
  match t with
  | Terminada _ => 1
  | _ => 0
  end.

Definition hechas (s : state) : nat := sum_list (is_terminada <$> tareas s).

(** What holds of every state a batch with budget [K] goes through. *)
Record invariante (cfg : config) (clients : nat -> upstream)
    (dnis : list Py.str) (K : nat) (s : state) : Prop := Invariante {
  inv_length : length (tareas s) = length dnis;
  inv_slots : semaforo s + en_vuelo s = K;
  inv_calls : length (llamadas s) = en_vuelo s + hechas s;
  inv_items : forall i it, tareas s !! i = Some (Terminada it) ->
      exists d, dnis !! i = Some d /\ it = consultar_uno cfg (clients i) d
}.

(** ** Bookkeeping for the fan-out *)

(** The keys whose task has left [Esperando]: their request has been sent. *)
Fixpoint enviados (ds : list Py.str) (ts : list tarea) : list Py.str :=
  match ds, ts with
  | d :: ds', t :: ts' =>
      match t with
      | Esperando => enviados ds' ts'
      | _ => d :: enviados ds' ts'
      end
  | _, _ => []
  end.

(** A request ends well when it is answered with a 2xx status and a body
    that decodes to a document. *)
Definition exito (r : result response) : bool :=
  match r with
  | Ok resp =>
      is_success resp
      && match json_body resp with
         | inl _ => true
         | inr _ => false
         end
  | Raise _ => false
  end.

(** The events of a batch of [n] keys: one acquisition and one answer per
    task. *)
Definition eventos (n : nat) : list event :=
  (Acquire <$> seq 0 n) ++ (Reply <$> seq 0 n).

(** The task an event belongs to. *)
Definition event_task (e : event) : nat :=
  match e with
  | Acquire i => i
  | Reply i => i
  end.

(** ** Header values in the HTTP client

    [client.post] hands the request to the HTTP/1.1 layer of [httpx], which
    validates every header value before it writes the request: a value is
    legal when it is empty or made of runs of visible characters separated
    by spaces or tabs, with no leading or trailing blank.  An illegal value
    makes [client.post] raise a [LocalProtocolError], a [RequestError], and
    the provider never sees the request. *)

Definition field_vchar (c : N) : bool :=
  negb (c =? 0)%N && negb (existsb (N.eqb c) [9; 10; 11; 12; 13; 32]%N).

Definition header_value_legal (v : Py.str) : bool :=
  match v with
  | [] => true
  | c :: _ =>
      field_vchar c && field_vchar (List.last v c)
      && forallb (fun x => field_vchar x || (x =? 32)%N || (x =? 9)%N) v
  end.

(** The text of the error, for a value of printable ASCII characters
    without quote or backslash. *)
Definition illegal_header_value (v : Py.str) : Py.str :=
  Py.lit "Illegal header value b'" ++ v ++ Py.lit "'".

(** [client.post] over a provider. *)
Definition httpx_post (provider : upstream) : upstream := fun req =>
  if header_value_legal (req_authorization req) then provider req
  else Raise (RequestError (illegal_header_value (req_authorization req))).

(** ** Sample data *)

Module Sample.

Definition sin_token : config := {| SEEKER_TOKEN := []; API_KEY := [] |}.
Definition con_token : config :=
  {| SEEKER_TOKEN := Py.lit "tok"; API_KEY := [] |}.

Definition k1 : Py.str := Py.lit "12345678".
Definition k2 : Py.str := Py.lit "87654321".

(** Eight ARABIC-INDIC DIGITs, U+0661 .. U+0668. *)
Definition arabic : Py.str :=
  [1633; 1634; 1635; 1636; 1637; 1638; 1639; 1640]%N.

Definition doc (d : Py.str) : json := JObj [(Py.lit "dni", JStr d)].

Definition found (req : request) : response :=
  {| status_code := 200;
     text := Py.lit "{}";
     json_body := inl (doc (req_data_dni req));
     status_error := [] |}.

(** A provider that answers every request with 200 and a document. *)
Definition siempre : nat -> upstream := fun _ req => Ok (found req).

(** A provider whose answer to the task at position 1 times out. *)
Definition falla_1 : nat -> upstream := fun i req =>
  match i with
  | 1 => Raise (RequestError (Py.lit "timed out"))
  | _ => Ok (found req)
  end.

Definition veintiuno : list Py.str := repeat k1 21.
Definition veintiuno_malos : list Py.str := repeat (Py.lit "x") 21.

Definition lote_2 : list Py.str := [k1; k2].
Definition lote_6 : list Py.str := repeat k1 6.
Definition lote_malo : list Py.str := [k1; Py.lit "1234567a"; k2; Py.lit ""].

(** Both tasks start; the second answer arrives first. *)
Definition cruzado : list event := [Acquire 0; Acquire 1; Reply 1; Reply 0].

Definition esperado_2 : outcome lote * list request :=
  (Returns {| total := 2;
              resultados := [ItemOk k1 (doc k1); ItemOk k2 (doc k2)] |},
   [peticion con_token k1; peticion con_token k2]).

Definition esperado_falla_1 : outcome lote * list request :=
  (Returns {| total := 2;
              resultados := [ItemOk k1 (doc k1);
                             ItemError k2 (Py.lit "timed out")] |},
   [peticion con_token k1; peticion con_token k2]).

Definition con_clave : config :=
  {| SEEKER_TOKEN := Py.lit "tok"; API_KEY := Py.lit "secreto" |}.

(** A provider that refuses every request with 404. *)
Definition no_encontrado : upstream := fun _ =>
  Ok {| status_code := 404;
        text := Py.lit "no existe";
        json_body := inr (Py.lit "Expecting value");
        status_error := Py.lit "Client error '404 Not Found'" |}.

(** Five tasks of [lote_6] take the five slots. *)
Definition cinco : list event :=
  [Acquire 0; Acquire 1; Acquire 2; Acquire 3; Acquire 4].

(** Another execution of [lote_2]: one task after the other. *)
Definition en_serie : list event := [Acquire 1; Reply 1; Acquire 0; Reply 0].

(** Eight SUPERSCRIPT TWO, U+00B2, and eight CIRCLED DIGIT ONE, U+2460:
    digits for [str.isdigit], not decimal digits. *)
Definition superindices : Py.str := repeat 178%N 8.
Definition circulados : Py.str := repeat 9312%N 8.

(** How a batch of six keys goes on after [cinco]: an answer frees a slot,
    the sixth task takes it, the other answers arrive. *)
Definition resto_6 : list event :=
  [Reply 2; Acquire 5; Reply 0; Reply 1; Reply 3; Reply 4; Reply 5].

Definition esperado_6 : outcome lote * list request :=
  (Returns {| total := 6; resultados := repeat (ItemOk k1 (doc k1)) 6 |},
   repeat (peticion con_token k1) 6).

(** The client over a provider that would answer every request. *)
Definition cliente : nat -> upstream := fun i => httpx_post (siempre i).

End Sample.

(** * Theorems *)

(** ** Strings and the lexical check *)

Lemma char_isdigit_ascii (c : N) :
  Py.is_ascii c = true -> Py.char_isdigit c = Py.ascii_decimal c.
Proof.
  unfold Py.is_ascii. intros Hc%N.ltb_lt.
  assert (Hrest : forall rs, forallb (fun r => (128 <=? fst r)%N) rs = true ->
                             existsb (Py.in_range c) rs = false).
  { induction rs as [|[lo hi] rs IH]; simpl; [done|].
    intros [Hlo Hrs]%andb_true_iff. rewrite (IH Hrs), orb_false_r.
    unfold Py.in_range; simpl. apply N.leb_le in Hlo.
    apply andb_false_iff. left. apply N.leb_gt. lia. }
  unfold Py.char_isdigit, Py.digit_ranges.
  match goal with
  | |- existsb ?f (?r :: ?rs) = _ =>
      change (f r || existsb f rs = Py.ascii_decimal c);
      rewrite (Hrest rs) by (vm_compute; reflexivity)
  end.
  by rewrite orb_false_r.
Qed.

Lemma ascii_decimal_is_ascii (c : N) :
  Py.ascii_decimal c = true -> Py.is_ascii c = true.
Proof.
  unfold Py.ascii_decimal, Py.is_ascii.
  intros [_ H%N.leb_le]%andb_true_iff. apply N.ltb_lt. lia.
Qed.

Lemma dni_valido_spec (d : Py.str) :
  dni_valido d = true <-> Py.len d = 8 /\ forallb Py.char_isdigit d = true.
Proof.
  unfold dni_valido, dni_invalido, Py.isdigit.
  rewrite negb_true_iff, orb_false_iff, !negb_false_iff, andb_true_iff.
  rewrite Nat.eqb_eq. split.
  - intros [[_ ?] ?]; done.
  - intros [Hl Hd]. split; [split|]; try done.
    destruct d; [discriminate Hl | done].
Qed.

(** What the check accepts: a key passes exactly when it has 8 characters
    that [str.isdigit] takes for digits; among the strings of ASCII
    characters these are exactly the strings of 8 ASCII decimal digits;
    "1234567", "123456789" and "1234567a" fail, "12345678" passes. *)
Theorem validator_accepts_eight_isdigit_chars (d : Py.str) :
  (dni_valido d = true <-> Py.len d = 8 /\ forallb Py.char_isdigit d = true)
  /\ (dni_valido d = true /\ forallb Py.is_ascii d = true
      <-> Py.len d = 8 /\ forallb Py.ascii_decimal d = true)
  /\ dni_valido (Py.lit "1234567") = false
  /\ dni_valido (Py.lit "123456789") = false
  /\ dni_valido (Py.lit "1234567a") = false
  /\ dni_valido (Py.lit "12345678") = true.
Proof.
  split; [apply dni_valido_spec|]. split; [|by vm_compute].
  rewrite dni_valido_spec. rewrite !forallb_forall. split.
  - intros [[Hl Hd] Ha]. split; [done|]. intros c Hc.
    rewrite <- char_isdigit_ascii; auto.
  - intros [Hl Hd]. split; [split; [done|]|]; intros c Hc.
    + rewrite char_isdigit_ascii; auto using ascii_decimal_is_ascii.
    + auto using ascii_decimal_is_ascii.
Qed.

(** The string of the eight Arabic-Indic digits U+0661 .. U+0668 passes
    the check and has no ASCII decimal digit. *)
Lemma validator_accepts_non_ascii_digits :
  dni_valido Sample.arabic = true
  /\ Py.len Sample.arabic = 8
  /\ forallb (fun c => negb (Py.ascii_decimal c)) Sample.arabic = true
  /\ ~ (dni_valido Sample.arabic = true
        <-> Py.len Sample.arabic = 8
            /\ forallb Py.ascii_decimal Sample.arabic = true).
Proof.
  repeat split; try (vm_compute; reflexivity).
  intros [H _]. specialize (H ltac:(vm_compute; reflexivity)).
  destruct H as [_ H]. vm_compute in H. discriminate.
Qed.

(** C4 fails on the code: the check lets through any 8 characters that
    [str.isdigit] calls digits.  Eight superscript twos (U+00B2), eight
    circled ones (U+2460) and the eight Arabic-Indic digits pass it although
    none of their characters is an ASCII decimal digit, and both handlers
    then ask the provider for them as they would for "12345678". *)
Theorem dni_check_accepts_non_decimal_digits :
  (dni_valido Sample.superindices = true
   /\ Py.len Sample.superindices = 8
   /\ forallb (fun c => negb (Py.ascii_decimal c)) Sample.superindices = true)
  /\ (dni_valido Sample.circulados = true
      /\ forallb (fun c => negb (Py.ascii_decimal c)) Sample.circulados = true)
  /\ (dni_valido Sample.arabic = true
      /\ forallb (fun c => negb (Py.ascii_decimal c)) Sample.arabic = true)
  /\ consultar_dni Sample.con_token (Sample.cliente 0) Sample.superindices
     = (Returns (Sample.doc Sample.superindices),
        [peticion Sample.con_token Sample.superindices])
  /\ consultar_lote Sample.con_token Sample.cliente
       [Sample.superindices; Sample.circulados] Sample.cruzado
     = Some (Returns {| total := 2;
                        resultados :=
                          [ItemOk Sample.superindices (Sample.doc Sample.superindices);
                           ItemOk Sample.circulados (Sample.doc Sample.circulados)] |},
             [peticion Sample.con_token Sample.superindices;
              peticion Sample.con_token Sample.circulados]).
Proof. repeat split; vm_compute; reflexivity. Qed.

(** ** The single lookup *)

(** C8: a single lookup of a well-formed key with no provider token
    configured raises the 500 configuration error and sends nothing
    upstream. *)
Theorem consultar_dni_without_token (cfg : config) (client : upstream)
    (dni : Py.str) :
  dni_valido dni = true ->
  SEEKER_TOKEN cfg = [] ->
  consultar_dni cfg client dni
  = (Raises (HTTPExc 500 (Texto (Py.lit "SEEKER_TOKEN no configurado en Railway"))),
     []).
Proof.
  unfold dni_valido, consultar_dni. intros Hv%negb_true_iff Ht.
  by rewrite Hv, Ht.
Qed.

Lemma consultar_dni_without_token_witness :
  consultar_dni Sample.sin_token (Sample.siempre 0) Sample.k1
  = (Raises (HTTPExc 500 (Texto (Py.lit "SEEKER_TOKEN no configurado en Railway"))),
     []).
Proof.
  apply consultar_dni_without_token; reflexivity.
Defined.

(** The same through the route, whenever the gate lets the request in. *)
Lemma ruta_dni_without_token (cfg : config) (k : option Py.str)
    (client : upstream) (dni : Py.str) :
  verificar_api_key cfg k = None ->
  dni_valido dni = true ->
  SEEKER_TOKEN cfg = [] ->
  exists e, ruta_dni cfg k client dni = (Raises e, []) /\ exc_status e = 500%Z.
Proof.
  unfold dni_valido, ruta_dni, consultar_dni.
  intros -> Hv%negb_true_iff Ht. rewrite Hv, Ht. eauto.
Qed.

(** ** The fan-out *)

Lemma sum_list_insert {A} (f : A -> nat) (l : list A) (i : nat) (x y : A) :
  l !! i = Some x ->
  sum_list (f <$> <[i := y]> l) + f x = sum_list (f <$> l) + f y.
Proof.
  revert i. induction l as [|a l IH]; intros [|i] H; simplify_eq/=.
  - lia.
  - specialize (IH _ H). lia.
Qed.

Lemma gather_lookup (ts : list tarea) (res : list item) (i : nat) :
  gather ts = Some res ->
  length res = length ts
  /\ forall it, res !! i = Some it -> ts !! i = Some (Terminada it).
Proof.
  unfold gather. intros H%mapM_Some. split.
  - symmetry. by eapply Forall2_length.
  - intros it Hit.
    destruct (Forall2_lookup_r _ _ _ _ _ H Hit) as (t & Ht & Hf).
    destruct t; simplify_eq/=. done.
Qed.

Lemma gather_counts (ts : list tarea) (res : list item) :
  gather ts = Some res ->
  sum_list (is_en_vuelo <$> ts) = 0
  /\ sum_list (is_terminada <$> ts) = length ts
  /\ sum_list (peso <$> ts) = 0.
Proof.
  unfold gather. intros H%mapM_Some.
  induction H as [|t it ts res Ht _ IH]; [done|].
  destruct t; simplify_eq/=. lia.
Qed.

Lemma gather_pending (ts : list tarea) :
  gather ts = None ->
  exists i, ts !! i = Some Esperando \/ ts !! i = Some EnVuelo.
Proof.
  unfold gather. induction ts as [|t ts IH]; [done|].
  destruct t; [exists 0; by left | exists 0; by right |].
  simpl. intros H.
  destruct (mapM terminada ts) eqn:E; [done|].
  destruct (IH eq_refl) as [i Hi]. by exists (S i).
Qed.

Lemma en_vuelo_zero (ts : list tarea) (i : nat) :
  sum_list (is_en_vuelo <$> ts) = 0 -> ts !! i <> Some EnVuelo.
Proof.
  revert i. induction ts as [|t ts IH]; intros [|i]; simpl; try done.
  - destruct t; simpl; intros H; [done | discriminate H | done].
  - intros H. apply IH. destruct t; simpl in H; [done | discriminate H | done].
Qed.

Section Fanout.

Variable cfg : config.
Variable clients : nat -> upstream.
Variable dnis : list Py.str.

#[local] Abbreviation step := (step cfg clients dnis).
#[local] Abbreviation run := (run cfg clients dnis).
#[local] Abbreviation invariante := (invariante cfg clients dnis).

Lemma inicial_invariante (K : nat) : invariante K (inicial K dnis).
Proof.
  assert (Hz : forall (f : tarea -> nat), f Esperando = 0 ->
               sum_list (f <$> ((fun _ => Esperando) <$> dnis)) = 0).
  { intros f Hf. induction dnis as [|d l IH]; csimpl; [done|]. lia. }
  split; unfold en_vuelo, hechas; simpl.
  - by rewrite length_fmap.
  - rewrite Hz by done. lia.
  - by rewrite !Hz.
  - intros i it. rewrite list_lookup_fmap.
    destruct (dnis !! i); simpl; congruence.
Qed.

Lemma step_invariante (K : nat) (s s' : state) (e : event) :
  invariante K s -> step s e = Some s' -> invariante K s'.
Proof.
  intros [Hl Hs Hc Hi] Hstep. destruct e as [i|i]; simpl in Hstep.
  - destruct (tareas s !! i) as [[| |]|] eqn:Ht; try done.
    destruct (dnis !! i) as [d|] eqn:Hd; try done.
    destruct (semaforo s) as [|free] eqn:Hsem; simplify_eq.
    pose proof (sum_list_insert is_en_vuelo _ _ _ EnVuelo Ht) as H1.
    pose proof (sum_list_insert is_terminada _ _ _ EnVuelo Ht) as H2.
    unfold en_vuelo, hechas in *. simpl in *.
    split; unfold en_vuelo, hechas; simpl.
    + by rewrite length_insert.
    + lia.
    + rewrite length_app. simpl. lia.
    + intros j it Hj. destruct (decide (i = j)) as [->|Hne].
      * rewrite list_lookup_insert_eq in Hj by (by eapply lookup_lt_Some).
        done.
      * rewrite list_lookup_insert_ne in Hj by done. eauto.
  - destruct (tareas s !! i) as [[| |]|] eqn:Ht; try done.
    destruct (dnis !! i) as [d|] eqn:Hd; simplify_eq.
    set (it0 := consultar_uno cfg (clients i) d).
    pose proof (sum_list_insert is_en_vuelo _ _ _ (Terminada it0) Ht) as H1.
    pose proof (sum_list_insert is_terminada _ _ _ (Terminada it0) Ht) as H2.
    unfold en_vuelo, hechas in *. simpl in *.
    split; unfold en_vuelo, hechas; simpl.
    + by rewrite length_insert.
    + lia.
    + lia.
    + intros j it Hj. destruct (decide (i = j)) as [->|Hne].
      * rewrite list_lookup_insert_eq in Hj by (by eapply lookup_lt_Some).
        simplify_eq. eauto.
      * rewrite list_lookup_insert_ne in Hj by done. eauto.
Qed.

Lemma run_invariante (K : nat) (evs : list event) (s s' : state) :
  invariante K s -> run s evs = Some s' -> invariante K s'.
Proof.
  revert s. induction evs as [|e evs IH]; intros s Hs H; simpl in H.
  - by simplify_eq.
  - destruct (step s e) as [s1|] eqn:E; [|done].
    eauto using step_invariante.
Qed.

Lemma run_app (evs1 evs2 : list event) (s : state) :
  run s (evs1 ++ evs2) = run s evs1 ≫= fun s1 => run s1 evs2.
Proof.
  revert s. induction evs1 as [|e evs1 IH]; intros s; simpl; [done|].
  destruct (step s e); simpl; [apply IH | done].
Qed.

Lemma step_pendiente (s s' : state) (e : event) :
  step s e = Some s' -> pendiente s = S (pendiente s').
Proof.
  intros Hstep. unfold pendiente. destruct e as [i|i]; simpl in Hstep.
  - destruct (tareas s !! i) as [[| |]|] eqn:Ht; try done.
    destruct (dnis !! i) as [d|] eqn:Hd; try done.
    destruct (semaforo s) as [|free] eqn:Hsem; simplify_eq; simpl.
    pose proof (sum_list_insert peso _ _ _ EnVuelo Ht) as H1.
    simpl in H1. lia.
  - destruct (tareas s !! i) as [[| |]|] eqn:Ht; try done.
    destruct (dnis !! i) as [d|] eqn:Hd; simplify_eq; simpl.
    pose proof (sum_list_insert peso _ _ _
                  (Terminada (consultar_uno cfg (clients i) d)) Ht) as H1.
    simpl in H1. lia.
Qed.

(** No deadlock: while a task is pending, some event can happen. *)
Lemma step_progress (K : nat) (s : state) :
  1 <= K -> invariante K s -> gather (tareas s) = None ->
  exists e s', step s e = Some s'.
Proof.
  intros HK [Hl Hs Hc Hi] Hg.
  assert (Hd : forall i t, tareas s !! i = Some t -> is_Some (dnis !! i)).
  { intros i t Ht. apply lookup_lt_is_Some. rewrite <- Hl.
    by eapply lookup_lt_Some. }
  destruct (decide (en_vuelo s = 0)) as [Hz|Hnz].
  - destruct (gather_pending _ Hg) as [i [Hi'|Hi']].
    + destruct (Hd _ _ Hi') as [d Hdi].
      exists (Acquire i). simpl. rewrite Hi', Hdi.
      destruct (semaforo s) eqn:E; [lia | eauto].
    + by apply en_vuelo_zero with (i := i) in Hz.
  - assert (exists i, tareas s !! i = Some EnVuelo) as [i Hi'].
    { unfold en_vuelo in Hnz. clear -Hnz.
      induction (tareas s) as [|t ts IH]; [done|].
      destruct t; csimpl in Hnz; [| by exists 0 |];
        (destruct IH as [i Hi]; [done | by exists (S i)]). }
    destruct (Hd _ _ Hi') as [d Hdi].
    exists (Reply i). simpl. rewrite Hi', Hdi. eauto.
Qed.

(** Every state of a batch can be run to completion. *)
Lemma run_completes (K : nat) (s : state) :
  1 <= K -> invariante K s ->
  exists evs s' res, run s evs = Some s' /\ gather (tareas s') = Some res.
Proof.
  intros HK. remember (pendiente s) as n eqn:Hn. revert s Hn.
  induction n as [n IH] using lt_wf_ind. intros s Hn Hinv.
  destruct (gather (tareas s)) as [res|] eqn:Hg.
  - exists [], s, res. done.
  - destruct (step_progress K s HK Hinv Hg) as (e & s1 & Hstep).
    pose proof (step_pendiente _ _ _ Hstep) as Hp.
    destruct (IH (pendiente s1) ltac:(lia) s1 eq_refl) as (evs & s' & res & Hr & Hres).
    { eauto using step_invariante. }
    exists (e :: evs), s', res. simpl. by rewrite Hstep.
Qed.

(** Once every task has returned, the entries are those of the keys, by
    position, whatever the schedule was. *)
Lemma gather_invariante (K : nat) (s : state) (res : list item) :
  invariante K s -> gather (tareas s) = Some res ->
  res = imap (fun i d => consultar_uno cfg (clients i) d) dnis
  /\ length (llamadas s) = length dnis
  /\ en_vuelo s = 0.
Proof.
  intros [Hl Hs Hc Hi] Hg.
  destruct (gather_counts _ _ Hg) as (Hv & Ht & _).
  unfold en_vuelo, hechas in *. split; [|lia].
  apply list_eq. intros i. rewrite list_lookup_imap.
  destruct (gather_lookup _ _ i Hg) as [Hlen Hlk].
  destruct (res !! i) as [it|] eqn:Hr.
  - destruct (Hi _ _ (Hlk _ eq_refl)) as (d & Hd & ->). by rewrite Hd.
  - apply lookup_ge_None in Hr.
    rewrite (proj2 (lookup_ge_None dnis i)) by lia. done.
Qed.

End Fanout.

(** ** The batch handler *)

Lemma item_dni_consultar_uno (cfg : config) (client : upstream) (d : Py.str) :
  item_dni (consultar_uno cfg client d) = d.
Proof.
  unfold consultar_uno, raise_for_status, response_json.
  destruct (client (peticion cfg d)) as [r|e]; simpl; [|done].
  destruct (is_success r); simpl; [|done].
  by destruct (json_body r).
Qed.

Lemma aceptado_spec (dnis : list Py.str) :
  aceptado dnis = true <-> length dnis <= 20 /\ invalidos dnis = [].
Proof.
  unfold aceptado, invalidos.
  rewrite andb_true_iff, negb_true_iff, Nat.ltb_ge.
  apply and_iff_compat_l.
  induction dnis as [|d l IH]; [done|]. simpl.
  rewrite andb_true_iff, IH. unfold dni_valido.
  destruct (dni_invalido d) eqn:E; simpl.
  - rewrite filter_cons_True by done. split; [by intros [? _] | done].
  - rewrite filter_cons_False by congruence. split; [by intros [_ ?] | done].
Qed.

(** An accepted batch returns what the fan-out left behind. *)
Lemma consultar_lote_aceptado (cfg : config) (clients : nat -> upstream)
    (dnis : list Py.str) (evs : list event) (r : outcome lote * list request) :
  aceptado dnis = true ->
  consultar_lote cfg clients dnis evs = Some r ->
  exists s res,
    run cfg clients dnis (inicial 5 dnis) evs = Some s
    /\ gather (tareas s) = Some res
    /\ r = (Returns {| total := length res; resultados := res |}, llamadas s).
Proof.
  intros [Hl Hi]%aceptado_spec. unfold consultar_lote.
  rewrite (proj2 (Nat.ltb_ge _ _) Hl), Hi. intros H.
  destruct (run cfg clients dnis (inicial 5 dnis) evs) as [s|]; [|done].
  simpl in H. destruct (gather (tareas s)) as [res|] eqn:Hg; [|done].
  simplify_eq/=. eauto.
Qed.

(** C1: a dispatched batch returns one entry per key: as many entries as
    keys, the entry at each position is that of the key at that position and
    carries the key, and the entries do not depend on the order in which
    the answers arrived.  Every partial execution can be completed, so the
    handler does return. *)
Theorem lote_one_outcome_per_key (cfg : config) (clients : nat -> upstream)
    (dnis : list Py.str) :
  aceptado dnis = true ->
  (forall evs r, consultar_lote cfg clients dnis evs = Some r ->
     exists res,
       r.1 = Returns {| total := length dnis; resultados := res |}
       /\ length res = length dnis
       /\ res = imap (fun i d => consultar_uno cfg (clients i) d) dnis
       /\ forall i d, dnis !! i = Some d ->
            exists it, res !! i = Some it /\ item_dni it = d)
  /\ (forall evs s, run cfg clients dnis (inicial 5 dnis) evs = Some s ->
       exists evs' l calls,
         consultar_lote cfg clients dnis (evs ++ evs') = Some (Returns l, calls)).
Proof.
  intros Hac. split.
  - intros evs r Hr.
    destruct (consultar_lote_aceptado _ _ _ _ _ Hac Hr) as (s & res & Hrun & Hg & ->).
    pose proof (run_invariante _ _ _ 5 _ _ _ (inicial_invariante _ _ _ 5) Hrun) as Hinv.
    destruct (gather_invariante _ _ _ _ _ _ Hinv Hg) as (Hres & _ & _).
    assert (Hlen : length res = length dnis) by (by rewrite Hres, length_imap).
    exists res. simpl. rewrite Hlen. repeat split; try done.
    intros i d Hd. exists (consultar_uno cfg (clients i) d).
    rewrite Hres at 1. rewrite list_lookup_imap, Hd. simpl.
    by rewrite item_dni_consultar_uno.
  - intros evs s Hrun.
    pose proof (run_invariante _ _ _ 5 _ _ _ (inicial_invariante _ _ _ 5) Hrun) as Hinv.
    destruct (run_completes cfg clients dnis 5 s ltac:(lia) Hinv)
      as (evs' & s' & res & Hrun' & Hg).
    exists evs', {| total := length res; resultados := res |}, (llamadas s').
    apply aceptado_spec in Hac as [Hl Hi]. unfold consultar_lote.
    rewrite (proj2 (Nat.ltb_ge _ _) Hl), Hi, run_app, Hrun. simpl.
    rewrite Hrun'. simpl. by rewrite Hg.
Qed.

Lemma lote_one_outcome_per_key_witness :
  aceptado Sample.lote_2 = true
  /\ consultar_lote Sample.con_token Sample.siempre Sample.lote_2 Sample.cruzado
     = Some Sample.esperado_2
  /\ exists res,
       Sample.esperado_2.1
       = Returns {| total := length Sample.lote_2; resultados := res |}
       /\ length res = length Sample.lote_2
       /\ res = imap (fun i d => consultar_uno Sample.con_token (Sample.siempre i) d)
                     Sample.lote_2.
Proof.
  split; [reflexivity|]. split; [reflexivity|].
  destruct (proj1 (lote_one_outcome_per_key Sample.con_token Sample.siempre
                     Sample.lote_2 eq_refl) Sample.cruzado _ eq_refl)
    as (res & H1 & H2 & H3 & _).
  exists res. repeat split; assumption.
Defined.

(** What [consultar_uno] makes of each way its request can end. *)
Lemma consultar_uno_cases (cfg : config) (client : upstream) (d : Py.str) :
  let it := consultar_uno cfg client d in
  (item_status it = Py.lit "ok" \/ item_status it = Py.lit "error")
  /\ (forall e, client (peticion cfg d) = Raise e ->
        it = ItemError d (exn_str e))
  /\ (forall r, client (peticion cfg d) = Ok r -> is_success r = false ->
        it = ItemError d (status_error r))
  /\ (forall r msg, client (peticion cfg d) = Ok r -> is_success r = true ->
        json_body r = inr msg -> it = ItemError d msg)
  /\ (forall r doc, client (peticion cfg d) = Ok r -> is_success r = true ->
        json_body r = inl doc -> it = ItemOk d doc).
Proof.
  unfold consultar_uno, raise_for_status, response_json.
  destruct (client (peticion cfg d)) as [r|e]; simpl.
  - destruct (is_success r) eqn:Hs; simpl.
    + destruct (json_body r) as [doc|msg] eqn:Hj; simpl;
        repeat split; intros; simplify_eq; auto; congruence.
    + repeat split; intros; simplify_eq; auto; congruence.
  - repeat split; intros; simplify_eq; auto.
Qed.

(** C2: in a dispatched batch the handler returns (it neither raises nor
    lets an exception through), every entry has status "ok" or "error", and
    the entry at a position is decided by the answer to that position's
    request alone: an exception of [client.post], a non-2xx status or an
    undecodable body gives the error entry of that key with the text of the
    exception; a 2xx answer with a document gives the ok entry, whatever
    happened to the other requests. *)
Theorem lote_item_errors_recorded (cfg : config) (clients : nat -> upstream)
    (dnis : list Py.str) (evs : list event) (r : outcome lote * list request) :
  aceptado dnis = true ->
  consultar_lote cfg clients dnis evs = Some r ->
  exists res,
    r.1 = Returns {| total := length dnis; resultados := res |}
    /\ (forall it, it ∈ res ->
          item_status it = Py.lit "ok" \/ item_status it = Py.lit "error")
    /\ forall i d, dnis !! i = Some d ->
         exists it, res !! i = Some it
         /\ item_dni it = d
         /\ (forall e, clients i (peticion cfg d) = Raise e ->
               it = ItemError d (exn_str e))
         /\ (forall rp, clients i (peticion cfg d) = Ok rp ->
               is_success rp = false -> it = ItemError d (status_error rp))
         /\ (forall rp msg, clients i (peticion cfg d) = Ok rp ->
               is_success rp = true -> json_body rp = inr msg ->
               it = ItemError d msg)
         /\ (forall rp doc, clients i (peticion cfg d) = Ok rp ->
               is_success rp = true -> json_body rp = inl doc ->
               it = ItemOk d doc).
Proof.
  intros Hac Hr.
  destruct (consultar_lote_aceptado _ _ _ _ _ Hac Hr) as (s & res & Hrun & Hg & ->).
  pose proof (run_invariante _ _ _ 5 _ _ _ (inicial_invariante _ _ _ 5) Hrun) as Hinv.
  destruct (gather_invariante _ _ _ _ _ _ Hinv Hg) as (Hres & _ & _).
  assert (Hlen : length res = length dnis) by (by rewrite Hres, length_imap).
  exists res. simpl. rewrite Hlen. split; [done|]. split.
  - intros it [i Hi]%list_elem_of_lookup.
    rewrite Hres, list_lookup_imap in Hi.
    destruct (dnis !! i) as [d|]; simplify_eq/=.
    apply (consultar_uno_cases cfg (clients i) d).
  - intros i d Hd. exists (consultar_uno cfg (clients i) d).
    split; [by rewrite Hres, list_lookup_imap, Hd|].
    split; [apply item_dni_consultar_uno|].
    apply (consultar_uno_cases cfg (clients i) d).
Qed.

Lemma lote_item_errors_recorded_witness :
  aceptado Sample.lote_2 = true
  /\ consultar_lote Sample.con_token Sample.falla_1 Sample.lote_2 Sample.cruzado
     = Some Sample.esperado_falla_1
  /\ exists res,
       Sample.esperado_falla_1.1
       = Returns {| total := length Sample.lote_2; resultados := res |}
       /\ res !! 0 = Some (ItemOk Sample.k1 (Sample.doc Sample.k1))
       /\ res !! 1 = Some (ItemError Sample.k2 (Py.lit "timed out")).
Proof.
  split; [reflexivity|]. split; [reflexivity|].
  destruct (lote_item_errors_recorded Sample.con_token Sample.falla_1
              Sample.lote_2 Sample.cruzado _ eq_refl eq_refl)
    as (res & H1 & _ & _).
  exists res. split; [exact H1|].
  injection H1 as <-. split; reflexivity.
Defined.

(** The bound of the semaphore, for any initial value. *)
Lemma run_en_vuelo_bounded (cfg : config) (clients : nat -> upstream)
    (dnis : list Py.str) (K : nat) (evs : list event) (s : state) :
  run cfg clients dnis (inicial K dnis) evs = Some s ->
  en_vuelo s <= K /\ semaforo s = K - en_vuelo s
  /\ length (llamadas s) = en_vuelo s + hechas s.
Proof.
  intros Hrun.
  destruct (run_invariante _ _ _ K _ _ _ (inicial_invariante _ _ _ K) Hrun)
    as [_ Hs Hc _].
  lia.
Qed.

(** C3: at every point of a dispatched batch (after any prefix [evs] of
    its execution) at most 5 upstream calls are in progress, 5 being the
    value the semaphore is created with; the calls in progress are the
    requests sent and not yet answered. *)
Theorem lote_in_flight_bounded (cfg : config) (clients : nat -> upstream)
    (dnis : list Py.str) (evs evs' : list event)
    (r : outcome lote * list request) :
  aceptado dnis = true ->
  consultar_lote cfg clients dnis (evs ++ evs') = Some r ->
  exists s,
    run cfg clients dnis (inicial 5 dnis) evs = Some s
    /\ en_vuelo s <= 5
    /\ en_vuelo s = length (llamadas s) - hechas s.
Proof.
  intros Hac Hr.
  destruct (consultar_lote_aceptado _ _ _ _ _ Hac Hr) as (s' & res & Hrun & _).
  rewrite run_app in Hrun.
  destruct (run cfg clients dnis (inicial 5 dnis) evs) as [s|] eqn:E; [|done].
  exists s. split; [done|].
  destruct (run_en_vuelo_bounded _ _ _ _ _ _ E) as (? & _ & ?). lia.
Qed.

Lemma lote_in_flight_bounded_witness :
  aceptado Sample.lote_6 = true
  /\ consultar_lote Sample.con_token Sample.siempre Sample.lote_6
       (Sample.cinco ++ Sample.resto_6)
     = Some Sample.esperado_6
  /\ exists s,
       run Sample.con_token Sample.siempre Sample.lote_6
           (inicial 5 Sample.lote_6) Sample.cinco = Some s
       /\ en_vuelo s <= 5
       /\ en_vuelo s = length (llamadas s) - hechas s
       /\ en_vuelo s = 5
       /\ tareas s !! 5 = Some Esperando
       /\ step Sample.con_token Sample.siempre Sample.lote_6 s (Acquire 5) = None.
Proof.
  split; [reflexivity|]. split; [reflexivity|].
  destruct (lote_in_flight_bounded Sample.con_token Sample.siempre Sample.lote_6
              Sample.cinco Sample.resto_6 _ eq_refl eq_refl)
    as (s & Hrun & Hle & Heq).
  exists s. split; [exact Hrun|]. split; [exact Hle|]. split; [exact Heq|].
  vm_compute in Hrun. injection Hrun as <-.
  repeat split.
Defined.

(** With six keys the sixth task cannot start while five calls are in
    progress; it can once one of them has been answered. *)
Example sixth_task_waits :
  run Sample.con_token Sample.siempre Sample.lote_6 (inicial 5 Sample.lote_6)
      [Acquire 0; Acquire 1; Acquire 2; Acquire 3; Acquire 4; Acquire 5] = None
  /\ en_vuelo <$> run Sample.con_token Sample.siempre Sample.lote_6
        (inicial 5 Sample.lote_6)
        [Acquire 0; Acquire 1; Acquire 2; Acquire 3; Acquire 4] = Some 5
  /\ en_vuelo <$> run Sample.con_token Sample.siempre Sample.lote_6
        (inicial 5 Sample.lote_6)
        [Acquire 0; Acquire 1; Acquire 2; Acquire 3; Acquire 4;
         Reply 2; Acquire 5] = Some 5.
Proof. repeat split. Qed.

(** C7: a batch of more than 20 keys is rejected with the 400 of the size
    cap, whatever the keys are, and sends nothing upstream: the answer does
    not depend on the provider or on any schedule. *)
Theorem lote_over_cap_rejected (cfg : config) (clients : nat -> upstream)
    (dnis : list Py.str) (evs : list event) :
  20 < length dnis ->
  consultar_lote cfg clients dnis evs
  = Some (Raises (HTTPExc 400 (Texto (Py.lit "M" ++ [225%N]
                                        ++ Py.lit "ximo 20 DNIs por lote"))),
          []).
Proof.
  intros H%Nat.ltb_lt. unfold consultar_lote. by rewrite H.
Qed.

Lemma lote_over_cap_rejected_witness :
  20 < length Sample.veintiuno
  /\ aceptado (take 20 Sample.veintiuno) = true
  /\ consultar_lote Sample.con_token Sample.siempre Sample.veintiuno []
     = Some (Raises (HTTPExc 400 (Texto (Py.lit "M" ++ [225%N]
                                           ++ Py.lit "ximo 20 DNIs por lote"))),
             []).
Proof.
  split; [vm_compute; lia|]. split; [reflexivity|].
  apply lote_over_cap_rejected. vm_compute; lia.
Defined.



(** C10: the size cap is checked before the keys are: a batch of more than
    20 keys that also holds keys failing the check is rejected with the
    size-cap detail, not with the list of failing keys. *)
Theorem lote_cap_checked_before_keys (cfg : config) (clients : nat -> upstream)
    (dnis : list Py.str) (evs : list event) :
  20 < length dnis ->
  invalidos dnis <> [] ->
  exists e,
    consultar_lote cfg clients dnis evs = Some (Raises e, [])
    /\ exc_status e = 400%Z
    /\ exc_detail e = Texto (Py.lit "M" ++ [225%N] ++ Py.lit "ximo 20 DNIs por lote")
    /\ forall t l, exc_detail e <> TextoLista t l.
Proof.
  intros H%Nat.ltb_lt _. unfold consultar_lote. rewrite H.
  eexists. split; [reflexivity|]. simpl. by repeat split.
Qed.

Lemma lote_cap_checked_before_keys_witness :
  20 < length Sample.veintiuno_malos
  /\ length (invalidos Sample.veintiuno_malos) = 21
  /\ exists e,
       consultar_lote Sample.con_token Sample.siempre Sample.veintiuno_malos []
       = Some (Raises e, [])
       /\ exc_status e = 400%Z
       /\ exc_detail e = Texto (Py.lit "M" ++ [225%N] ++ Py.lit "ximo 20 DNIs por lote")
       /\ forall t l, exc_detail e <> TextoLista t l.
Proof.
  split; [vm_compute; lia|]. split; [reflexivity|].
  apply lote_cap_checked_before_keys.
  - vm_compute; lia.
  - vm_compute. discriminate.
Defined.

(** C9: the batch of no keys returns total 0 and no entries and sends
    nothing upstream; no event can happen in it. *)
Theorem lote_empty (cfg : config) (clients : nat -> upstream) :
  consultar_lote cfg clients [] []
  = Some (Returns {| total := 0; resultados := [] |}, [])
  /\ forall evs r, consultar_lote cfg clients [] evs = Some r ->
       evs = [] /\ r = (Returns {| total := 0; resultados := [] |}, []).
Proof.
  split; [reflexivity|]. intros evs r.
  destruct evs as [|[i|i] evs]; cbn.
  - intros; by simplify_eq.
  - done.
  - done.
Qed.

Lemma lote_empty_witness :
  consultar_lote Sample.sin_token Sample.siempre [] []
  = Some (Returns {| total := 0; resultados := [] |}, [])
  /\ (@nil event = []
      /\ (Returns {| total := 0; resultados := [] |}, @nil request)
         = (Returns {| total := 0; resultados := [] |}, [])).
Proof.
  split; [reflexivity|].
  exact (proj2 (lote_empty Sample.sin_token Sample.siempre) [] _ eq_refl).
Defined.

(** C6 fails on the batch path: [consultar_lote] never looks at the token.
    With none configured, the batch of the one key "12345678" still calls
    [client.post], with the header value [Bearer ] and nothing after it; the
    client refuses that value, the exception is caught like any other, and
    the call returns an error entry with the client's text, not the
    configuration error.  The single lookup of the same key raises the 500
    and calls nothing. *)
Theorem lote_without_token_no_configuration_error :
  SEEKER_TOKEN Sample.sin_token = []
  /\ req_authorization (peticion Sample.sin_token Sample.k1) = Py.lit "Bearer "
  /\ header_value_legal (Py.lit "Bearer ") = false
  /\ consultar_lote Sample.sin_token Sample.cliente [Sample.k1] [Acquire 0; Reply 0]
     = Some (Returns {| total := 1;
                        resultados :=
                          [ItemError Sample.k1
                             (Py.lit "Illegal header value b'Bearer '")] |},
             [peticion Sample.sin_token Sample.k1])
  /\ consultar_dni Sample.sin_token (Sample.cliente 0) Sample.k1
     = (Raises (HTTPExc 500 (Texto (Py.lit "SEEKER_TOKEN no configurado en Railway"))),
        []).
Proof. repeat split. Qed.

(** The same for every batch and every provider: with no token, a
    dispatched batch returns, and each of its entries is the error entry of
    the refused header. *)
Lemma lote_without_token_all_errors (cfg : config) (provider : nat -> upstream)
    (dnis : list Py.str) (evs : list event) (r : outcome lote * list request) :
  SEEKER_TOKEN cfg = [] ->
  aceptado dnis = true ->
  consultar_lote cfg (fun i => httpx_post (provider i)) dnis evs = Some r ->
  exists res,
    r.1 = Returns {| total := length dnis; resultados := res |}
    /\ res = (fun d => ItemError d (Py.lit "Illegal header value b'Bearer '"))
             <$> dnis.
Proof.
  intros Ht Hac Hr.
  destruct (consultar_lote_aceptado _ _ _ _ _ Hac Hr) as (s & res & Hrun & Hg & ->).
  pose proof (run_invariante _ _ _ 5 _ _ _ (inicial_invariante _ _ _ 5) Hrun) as Hinv.
  destruct (gather_invariante _ _ _ _ _ _ Hinv Hg) as (Hres & _ & _).
  exists res. simpl. split.
  - by rewrite Hres, length_imap.
  - rewrite Hres. apply list_eq. intros i.
    rewrite list_lookup_imap, list_lookup_fmap.
    destruct (dnis !! i) as [d|]; [|done]. simpl. f_equal.
    unfold consultar_uno, httpx_post, peticion. simpl. by rewrite Ht.
Qed.

(** On the batch path the token is never looked at: no dispatched batch
    raises, with or without a token, and [client.post] is called once for
    every key. *)
Lemma lote_never_checks_token (cfg : config) (clients : nat -> upstream)
    (dnis : list Py.str) (evs : list event) (r : outcome lote * list request) :
  aceptado dnis = true ->
  consultar_lote cfg clients dnis evs = Some r ->
  (exists l, r.1 = Returns l) /\ length r.2 = length dnis.
Proof.
  intros Hac Hr.
  destruct (consultar_lote_aceptado _ _ _ _ _ Hac Hr) as (s & res & Hrun & Hg & ->).
  pose proof (run_invariante _ _ _ 5 _ _ _ (inicial_invariante _ _ _ 5) Hrun) as Hinv.
  destruct (gather_invariante _ _ _ _ _ _ Hinv Hg) as (_ & Hc & _).
  simpl. eauto.
Qed.

(** The gate of the routes: disabled when no key is configured. *)
Lemma verificar_api_key_disabled (cfg : config) (k : option Py.str) :
  API_KEY cfg = [] -> verificar_api_key cfg k = None.
Proof. unfold verificar_api_key. by intros ->. Qed.

(** * Further properties *)

(** ** The gate *)

Lemma eqb_eq (s t : Py.str) : Py.eqb s t = true <-> s = t.
Proof.
  revert t. induction s as [|a s IH]; intros [|b t]; simpl; try done.
  unfold Py.char_eqb. rewrite andb_true_iff, N.eqb_eq, IH.
  split; [intros [-> ->]; done | intros [= -> ->]; done].
Qed.

(** X1: the gate lets a request through exactly when no API key is
    configured or the header carries the configured key; otherwise it
    raises 401. *)
Theorem verificar_api_key_passes_iff (cfg : config) (k : option Py.str) :
  (verificar_api_key cfg k = None
   <-> API_KEY cfg = [] \/ k = Some (API_KEY cfg))
  /\ (verificar_api_key cfg k = None
      \/ exc_status <$> verificar_api_key cfg k = Some 401%Z).
Proof.
  unfold verificar_api_key.
  destruct (API_KEY cfg) as [|c key] eqn:Hk; simpl.
  { split; [split; auto | auto]. }
  destruct k as [k|]; simpl.
  - destruct (Py.eqb k (c :: key)) eqn:E; simpl.
    + apply eqb_eq in E as ->. split; [split; auto | auto].
    + split; [|by right]. split; [done|].
      intros [?|[= ->]]; [done|].
      by rewrite (proj2 (eqb_eq _ _) eq_refl) in E.
  - split; [|by right]. split; [done | intros [?|?]; done].
Qed.

(** X2: with an API key configured, a request whose header is missing or
    different is answered 401 on both routes before anything else is looked
    at: nothing is sent upstream, whatever the key, the batch or its size. *)
Theorem rutas_reject_wrong_key (cfg : config) (k : option Py.str)
    (client : upstream) (clients : nat -> upstream) (dni : Py.str)
    (dnis : list Py.str) (evs : list event) :
  API_KEY cfg <> [] ->
  k <> Some (API_KEY cfg) ->
  exists e,
    exc_status e = 401%Z
    /\ ruta_dni cfg k client dni = (Raises e, [])
    /\ ruta_lote cfg k clients dnis evs = Some (Raises e, []).
Proof.
  intros Hk Hne. unfold ruta_dni, ruta_lote, verificar_api_key.
  destruct (API_KEY cfg) as [|c key] eqn:E; [done|]. simpl.
  assert (Hd : match k with
               | Some k0 => negb (Py.eqb k0 (c :: key))
               | None => true
               end = true).
  { destruct k as [k0|]; [|done]. apply negb_true_iff.
    destruct (Py.eqb k0 (c :: key)) eqn:Eq; [|done].
    apply eqb_eq in Eq. congruence. }
  rewrite Hd. eexists. split; [|split; reflexivity]. reflexivity.
Qed.

Lemma rutas_reject_wrong_key_witness :
  API_KEY Sample.con_clave <> []
  /\ exists e,
       exc_status e = 401%Z
       /\ ruta_dni Sample.con_clave (Some (Py.lit "otra")) (Sample.siempre 0)
            Sample.k1 = (Raises e, [])
       /\ ruta_lote Sample.con_clave (Some (Py.lit "otra")) Sample.siempre
            Sample.veintiuno_malos [] = Some (Raises e, []).
Proof.
  split; [discriminate|].
  apply rutas_reject_wrong_key; discriminate.
Defined.

(** ** The single lookup, all of it *)

(** X3: a single lookup sends its one request exactly when the key passes
    the check and a token is configured, and sends nothing otherwise; there
    is no second attempt, however the provider answers. *)
Theorem consultar_dni_requests (cfg : config) (client : upstream)
    (dni : Py.str) :
  (consultar_dni cfg client dni).2
  = if dni_valido dni && Py.truthy (SEEKER_TOKEN cfg)
    then [peticion cfg dni] else [].
Proof.
  unfold consultar_dni, dni_valido.
  destruct (dni_invalido dni); [done|].
  by destruct (Py.truthy (SEEKER_TOKEN cfg)).
Qed.

(** X4: a single lookup returns a document exactly when the key passes the
    check, a token is configured, and the provider answers the one request
    with a 2xx status and a body that decodes to that very document. *)
Theorem consultar_dni_returns_iff (cfg : config) (client : upstream)
    (dni : Py.str) (doc : json) (calls : list request) :
  consultar_dni cfg client dni = (Returns doc, calls)
  <-> dni_valido dni = true
      /\ SEEKER_TOKEN cfg <> []
      /\ calls = [peticion cfg dni]
      /\ exists r, client (peticion cfg dni) = Ok r
                   /\ is_success r = true
                   /\ json_body r = inl doc.
Proof.
  unfold consultar_dni, dni_valido, raise_for_status, response_json.
  destruct (dni_invalido dni); simpl.
  { split; [done | by intros [? _]]. }
  destruct (SEEKER_TOKEN cfg) as [|c tok] eqn:Ht; simpl.
  { split; [done | by intros (_ & ? & _)]. }
  destruct (client (peticion cfg dni)) as [r|e] eqn:Hc; simpl.
  - destruct (is_success r) eqn:Hs; simpl.
    + destruct (json_body r) as [d|m] eqn:Hj; simpl.
      * split.
        -- intros [= -> <-]. repeat split; try done. by exists r.
        -- intros (_ & _ & -> & r' & [= <-] & _ & Hj').
           rewrite Hj in Hj'. by simplify_eq.
      * split; [done|].
        intros (_ & _ & _ & r' & [= <-] & _ & Hj'). congruence.
    + split; [done|].
      intros (_ & _ & _ & r' & [= <-] & Hs' & _). congruence.
  - split.
    + destruct e; done.
    + intros (_ & _ & _ & r' & ? & _). done.
Qed.

(** X5: the status of the [HTTPException] of a single lookup tells its
    cause: 400 with nothing sent for a key that fails the check, 500 with
    nothing sent for a missing token, 503 for a transport error of the
    request, and otherwise the status of the provider's own non-2xx answer,
    passed through with the provider's body in the detail. *)
Theorem consultar_dni_error_status (cfg : config) (client : upstream)
    (dni : Py.str) (e : HTTPException) (calls : list request) :
  consultar_dni cfg client dni = (Raises e, calls) ->
  (exc_status e = 400%Z /\ dni_invalido dni = true /\ calls = [])
  \/ (exc_status e = 500%Z /\ dni_valido dni = true
      /\ SEEKER_TOKEN cfg = [] /\ calls = [])
  \/ (exc_status e = 503%Z /\ calls = [peticion cfg dni]
      /\ exists msg, client (peticion cfg dni) = Raise (RequestError msg))
  \/ (calls = [peticion cfg dni]
      /\ exists r, client (peticion cfg dni) = Ok r
           /\ is_success r = false
           /\ exc_status e = status_code r
           /\ exc_detail e = Texto (Py.lit "Error de seeker.red: " ++ text r))
  \/ (calls = [peticion cfg dni]
      /\ exists msg body, client (peticion cfg dni)
                          = Raise (HTTPStatusError msg (exc_status e) body)).
Proof.
  unfold consultar_dni, dni_valido, raise_for_status, response_json.
  destruct (dni_invalido dni) eqn:Hv; simpl.
  { intros [= <- <-]. left. done. }
  destruct (SEEKER_TOKEN cfg) as [|c tok] eqn:Ht; simpl.
  { intros [= <- <-]. right; left. done. }
  destruct (client (peticion cfg dni)) as [r|x] eqn:Hc; simpl.
  - destruct (is_success r) eqn:Hs; simpl.
    + destruct (json_body r); simpl; intros [=].
    + intros [= <- <-]. do 3 right. left. split; [done|]. by exists r.
  - destruct x as [msg st body|msg|msg]; intros [= <- <-].
    + do 4 right. split; [done|]. by exists msg, body.
    + right; right; left. repeat split; try done. by exists msg.
Qed.

Lemma consultar_dni_error_status_witness :
  consultar_dni Sample.con_token Sample.no_encontrado Sample.k1
  = (Raises (HTTPExc 404 (Texto (Py.lit "Error de seeker.red: no existe"))),
     [peticion Sample.con_token Sample.k1])
  /\ exists r, Sample.no_encontrado (peticion Sample.con_token Sample.k1) = Ok r
       /\ status_code r = 404%Z.
Proof.
  split; [reflexivity|].
  destruct (consultar_dni_error_status Sample.con_token Sample.no_encontrado
              Sample.k1 _ _ eq_refl)
    as [(H & _)|[(H & _)|[(H & _)|[(_ & r & Hr & _ & Hs & _)|(_ & m & b & H)]]]];
    try discriminate H.
  exists r. split; [exact Hr|]. symmetry. exact Hs.
Defined.

(** X6: for a key that passes the check and with a token configured, the
    two paths make the same of an answer: the batch entry is ok with a
    document exactly when the single lookup returns that document, and it is
    an error entry exactly when the single lookup raises or lets an
    exception through. *)
Theorem consultar_uno_agrees_with_consultar_dni (cfg : config)
    (client : upstream) (dni : Py.str) :
  dni_valido dni = true ->
  SEEKER_TOKEN cfg <> [] ->
  (forall doc, consultar_uno cfg client dni = ItemOk dni doc
               <-> (consultar_dni cfg client dni).1 = Returns doc)
  /\ (item_status (consultar_uno cfg client dni) = Py.lit "error"
      <-> forall doc, (consultar_dni cfg client dni).1 <> Returns doc).
Proof.
  unfold dni_valido. intros Hv%negb_true_iff Ht.
  unfold consultar_uno, consultar_dni, raise_for_status, response_json.
  rewrite Hv. destruct (SEEKER_TOKEN cfg) as [|c tok]; [done|]. simpl.
  destruct (client (peticion cfg dni)) as [r|e]; simpl.
  - destruct (is_success r); simpl.
    + destruct (json_body r) as [d|m]; simpl.
      * split; [intros doc; split; congruence|].
        split; [done | intros H; by destruct (H d)].
      * split; [intros doc; split; congruence | done].
    + split; [intros doc; split; congruence | done].
  - split.
    + intros doc. destruct e; split; congruence.
    + destruct e; done.
Qed.

Lemma consultar_uno_agrees_with_consultar_dni_witness :
  dni_valido Sample.k1 = true
  /\ (consultar_uno Sample.con_token (Sample.siempre 0) Sample.k1
      = ItemOk Sample.k1 (Sample.doc Sample.k1)
      <-> (consultar_dni Sample.con_token (Sample.siempre 0) Sample.k1).1
          = Returns (Sample.doc Sample.k1)).
Proof.
  split; [reflexivity|].
  apply (consultar_uno_agrees_with_consultar_dni Sample.con_token
           (Sample.siempre 0) Sample.k1);
    [reflexivity | discriminate].
Defined.

(** ** The requests of a batch *)

Lemma enviados_inicial (ds : list Py.str) :
  enviados ds ((fun _ => Esperando) <$> ds) = [].
Proof. induction ds as [|d ds IH]; [done|]. csimpl. exact IH. Qed.

Lemma enviados_start (ds : list Py.str) (ts : list tarea) (i : nat) (d : Py.str) :
  ts !! i = Some Esperando -> ds !! i = Some d ->
  enviados ds (<[i := EnVuelo]> ts) ≡ₚ d :: enviados ds ts.
Proof.
  revert ts i. induction ds as [|d0 ds IH]; intros [|t ts] [|i] Ht Hd;
    simplify_eq/=; [done|].
  specialize (IH _ _ Ht Hd). destruct t; [done| |].
  - rewrite IH. apply Permutation_swap.
  - rewrite IH. apply Permutation_swap.
Qed.

Lemma enviados_finish (ds : list Py.str) (ts : list tarea) (i : nat) (it : item) :
  ts !! i = Some EnVuelo ->
  enviados ds (<[i := Terminada it]> ts) = enviados ds ts.
Proof.
  revert ts i. induction ds as [|d0 ds IH]; intros [|t ts] [|i] Ht;
    simplify_eq/=; try done.
  rewrite (IH _ _ Ht). done.
Qed.

Lemma enviados_gather (ds : list Py.str) (ts : list tarea) (res : list item) :
  length ts = length ds -> gather ts = Some res -> enviados ds ts = ds.
Proof.
  unfold gather. intros Hl H%mapM_Some. revert ds Hl.
  induction H as [|t it ts res Ht _ IH]; intros [|d ds] Hl; simplify_eq/=;
    [done|].
  destruct t; simplify_eq/=. f_equal. apply IH. lia.
Qed.

Lemma enviados_elem (ds : list Py.str) (ts : list tarea) (d : Py.str) :
  d ∈ enviados ds ts -> d ∈ ds.
Proof.
  revert ts. induction ds as [|d0 ds IH]; intros [|t ts]; simpl;
    try (by intros ?%not_elem_of_nil).
  destruct t; intros H.
  - apply elem_of_cons. right. eauto.
  - apply elem_of_cons in H as [->|H]; apply elem_of_cons; eauto.
  - apply elem_of_cons in H as [->|H]; apply elem_of_cons; eauto.
Qed.

Section Requests.

Variable cfg : config.
Variable clients : nat -> upstream.
Variable dnis : list Py.str.

#[local] Abbreviation step := (step cfg clients dnis).
#[local] Abbreviation run := (run cfg clients dnis).

(** What one event does to the task it belongs to; no other task moves. *)
Lemma step_task (s s' : state) (e : event) :
  step s e = Some s' ->
  exists t t',
    tareas s !! event_task e = Some t
    /\ tareas s' !! event_task e = Some t'
    /\ (forall j, j <> event_task e -> tareas s' !! j = tareas s !! j)
    /\ match e with
       | Acquire _ => t = Esperando /\ t' = EnVuelo
       | Reply _ => t = EnVuelo /\ exists it, t' = Terminada it
       end.
Proof.
  intros Hstep. destruct e as [i|i]; simpl in *.
  - destruct (tareas s !! i) as [[| |]|] eqn:Ht; try done.
    destruct (dnis !! i) as [d|] eqn:Hd; try done.
    destruct (semaforo s) as [|free] eqn:Hsem; simplify_eq; simpl.
    exists Esperando, EnVuelo. repeat split; try done.
    + apply list_lookup_insert_eq. by eapply lookup_lt_Some.
    + intros j Hj. by apply list_lookup_insert_ne.
  - destruct (tareas s !! i) as [[| |]|] eqn:Ht; try done.
    destruct (dnis !! i) as [d|] eqn:Hd; simplify_eq; simpl.
    eexists EnVuelo, (Terminada _). repeat split; try done.
    + apply list_lookup_insert_eq. by eapply lookup_lt_Some.
    + intros j Hj. by apply list_lookup_insert_ne.
    + eauto.
Qed.

Lemma step_llamadas (s s' : state) (e : event) :
  llamadas s ≡ₚ peticion cfg <$> enviados dnis (tareas s) ->
  step s e = Some s' ->
  llamadas s' ≡ₚ peticion cfg <$> enviados dnis (tareas s').
Proof.
  intros Hp Hstep. destruct e as [i|i]; simpl in Hstep.
  - destruct (tareas s !! i) as [[| |]|] eqn:Ht; try done.
    destruct (dnis !! i) as [d|] eqn:Hd; try done.
    destruct (semaforo s) as [|free] eqn:Hsem; simplify_eq; simpl.
    rewrite (enviados_start _ _ _ _ Ht Hd). csimpl.
    rewrite <- Hp. symmetry. apply Permutation_cons_append.
  - destruct (tareas s !! i) as [[| |]|] eqn:Ht; try done.
    destruct (dnis !! i) as [d|] eqn:Hd; simplify_eq; simpl.
    by rewrite (enviados_finish _ _ _ _ Ht).
Qed.

Lemma run_llamadas (evs : list event) (s s' : state) :
  llamadas s ≡ₚ peticion cfg <$> enviados dnis (tareas s) ->
  run s evs = Some s' ->
  llamadas s' ≡ₚ peticion cfg <$> enviados dnis (tareas s').
Proof.
  revert s. induction evs as [|e evs IH]; intros s Hs H; simpl in H.
  - by simplify_eq.
  - destruct (step s e) as [s1|] eqn:E; [|done].
    eauto using step_llamadas.
Qed.

Lemma run_pendiente (evs : list event) (s s' : state) :
  run s evs = Some s' -> pendiente s = length evs + pendiente s'.
Proof.
  revert s. induction evs as [|e evs IH]; intros s H; simpl in H.
  - by simplify_eq.
  - destruct (step s e) as [s1|] eqn:E; [|done].
    rewrite (step_pendiente _ _ _ _ _ _ E), (IH _ H). simpl. lia.
Qed.

(** No event happens twice in an execution, and an event can only happen
    to a task that has not passed it yet. *)
Lemma run_events (evs : list event) (s s' : state) :
  run s evs = Some s' ->
  NoDup evs
  /\ (forall i, Acquire i ∈ evs -> tareas s !! i = Some Esperando)
  /\ (forall i, Reply i ∈ evs ->
        tareas s !! i = Some Esperando \/ tareas s !! i = Some EnVuelo).
Proof.
  revert s. induction evs as [|e evs IH]; intros s H; simpl in H.
  { split; [constructor|]. split; intros i Hi%not_elem_of_nil; done. }
  destruct (step s e) as [s1|] eqn:E; [|done].
  destruct (IH _ H) as (Hnd & Ha & Hr).
  destruct (step_task _ _ _ E) as (t & t' & Ht & Ht' & Hoth & He).
  split; [|split].
  - apply NoDup_cons. split; [|done]. intros Hin.
    destruct e as [i|i]; simpl in *.
    + destruct He as [_ ->]. rewrite (Ha _ Hin) in Ht'. done.
    + destruct He as [_ [it ->]]. destruct (Hr _ Hin) as [Hx|Hx];
        rewrite Hx in Ht'; done.
  - intros j [Hj|Hj]%elem_of_cons.
    + subst e. simpl in *. by destruct He as [-> _].
    + destruct (decide (j = event_task e)) as [->|Hne].
      * rewrite (Ha _ Hj) in Ht'. simplify_eq.
        destruct e; destruct He as [_ He]; [done | by destruct He].
      * rewrite <- (Hoth _ Hne). auto.
  - intros j [Hj|Hj]%elem_of_cons.
    + subst e. simpl in *. destruct He as [-> _]. auto.
    + destruct (decide (j = event_task e)) as [->|Hne].
      * destruct e; simpl in *; destruct He as [-> He]; [by left | by right].
      * rewrite <- (Hoth _ Hne). auto.
Qed.

End Requests.

Lemma inicial_llamadas (cfg : config) (K : nat) (dnis : list Py.str) :
  llamadas (inicial K dnis)
  ≡ₚ peticion cfg <$> enviados dnis (tareas (inicial K dnis)).
Proof. simpl. by rewrite enviados_inicial. Qed.

Lemma pendiente_inicial (K : nat) (dnis : list Py.str) :
  pendiente (inicial K dnis) = 2 * length dnis.
Proof.
  unfold pendiente. simpl. induction dnis as [|d l IH]; [done|].
  csimpl. rewrite IH. lia.
Qed.

(** X7: a dispatched batch sends exactly one request per key: the requests
    it sent are, up to the order in which the tasks got their slot, the
    requests of its keys, duplicates included; nothing is retried and no
    key is skipped. *)
Theorem lote_one_request_per_key (cfg : config) (clients : nat -> upstream)
    (dnis : list Py.str) (evs : list event) (r : outcome lote * list request) :
  aceptado dnis = true ->
  consultar_lote cfg clients dnis evs = Some r ->
  r.2 ≡ₚ peticion cfg <$> dnis.
Proof.
  intros Hac Hr.
  destruct (consultar_lote_aceptado _ _ _ _ _ Hac Hr) as (s & res & Hrun & Hg & ->).
  pose proof (run_invariante _ _ _ 5 _ _ _ (inicial_invariante _ _ _ 5) Hrun)
    as [Hl _ _ _].
  pose proof (run_llamadas _ _ _ _ _ _ (inicial_llamadas cfg 5 dnis) Hrun) as Hp.
  simpl. by rewrite Hp, (enviados_gather _ _ _ Hl Hg).
Qed.

Lemma lote_one_request_per_key_witness :
  aceptado Sample.lote_2 = true
  /\ consultar_lote Sample.con_token Sample.siempre Sample.lote_2 Sample.en_serie
     = Some (Sample.esperado_2.1,
             [peticion Sample.con_token Sample.k2;
              peticion Sample.con_token Sample.k1])
  /\ [peticion Sample.con_token Sample.k2; peticion Sample.con_token Sample.k1]
     ≡ₚ peticion Sample.con_token <$> Sample.lote_2.
Proof.
  split; [reflexivity|]. split; [reflexivity|].
  exact (lote_one_request_per_key Sample.con_token Sample.siempre Sample.lote_2
           Sample.en_serie _ eq_refl eq_refl).
Defined.

(** X8: whatever the batch and however the call ends, every request the
    batch handler sends upstream is the request of a key of the batch that
    passed the check: a key that fails the check never leaves the
    gateway. *)
Theorem lote_sends_only_checked_keys (cfg : config) (clients : nat -> upstream)
    (dnis : list Py.str) (evs : list event) (r : outcome lote * list request) :
  consultar_lote cfg clients dnis evs = Some r ->
  Forall (fun q => q = peticion cfg (req_data_dni q)
                   /\ req_data_dni q ∈ dnis
                   /\ dni_valido (req_data_dni q) = true) r.2.
Proof.
  intros Hr. destruct (aceptado dnis) eqn:Hac.
  - destruct (consultar_lote_aceptado _ _ _ _ _ Hac Hr) as (s & res & Hrun & Hg & ->).
    pose proof (run_llamadas _ _ _ _ _ _ (inicial_llamadas cfg 5 dnis) Hrun) as Hp.
    simpl. rewrite Hp. apply Forall_fmap, Forall_forall. intros d Hd%enviados_elem.
    simpl. repeat split; [done|].
    unfold aceptado in Hac. apply andb_true_iff in Hac as [_ Hall].
    rewrite forallb_forall in Hall. apply Hall. by apply list_elem_of_In.
  - unfold consultar_lote in Hr.
    destruct (20 <? length dnis) eqn:Hc; [by simplify_eq|].
    destruct (invalidos dnis) as [|x l] eqn:Hi; [|by simplify_eq].
    exfalso. assert (aceptado dnis = true); [|congruence].
    apply aceptado_spec. by apply Nat.ltb_ge in Hc.
Qed.

Lemma lote_sends_only_checked_keys_witness :
  Forall (fun q => q = peticion Sample.con_token (req_data_dni q)
                   /\ req_data_dni q ∈ Sample.lote_2
                   /\ dni_valido (req_data_dni q) = true)
         Sample.esperado_2.2.
Proof.
  exact (lote_sends_only_checked_keys Sample.con_token Sample.siempre
           Sample.lote_2 Sample.cruzado _ eq_refl).
Defined.

(** X9: when a dispatched batch returns, every slot of the semaphore has
    been given back: its value is 5 again, no call is in progress and every
    task has returned, however the requests ended. *)
Theorem lote_releases_every_slot (cfg : config) (clients : nat -> upstream)
    (dnis : list Py.str) (evs : list event) (r : outcome lote * list request) :
  aceptado dnis = true ->
  consultar_lote cfg clients dnis evs = Some r ->
  exists s,
    run cfg clients dnis (inicial 5 dnis) evs = Some s
    /\ semaforo s = 5
    /\ en_vuelo s = 0
    /\ hechas s = length dnis.
Proof.
  intros Hac Hr.
  destruct (consultar_lote_aceptado _ _ _ _ _ Hac Hr) as (s & res & Hrun & Hg & ->).
  pose proof (run_invariante _ _ _ 5 _ _ _ (inicial_invariante _ _ _ 5) Hrun)
    as [Hl Hs Hc Hi].
  destruct (gather_counts _ _ Hg) as (Hv & Ht & _).
  exists s. unfold en_vuelo, hechas in *. repeat split; try done; lia.
Qed.

Lemma lote_releases_every_slot_witness :
  aceptado Sample.lote_2 = true
  /\ exists s,
       run Sample.con_token Sample.falla_1 Sample.lote_2
           (inicial 5 Sample.lote_2) Sample.cruzado = Some s
       /\ semaforo s = 5
       /\ en_vuelo s = 0
       /\ hechas s = length Sample.lote_2.
Proof.
  split; [reflexivity|].
  exact (lote_releases_every_slot Sample.con_token Sample.falla_1 Sample.lote_2
           Sample.cruzado _ eq_refl eq_refl).
Defined.

(** X10: in every execution of a dispatched batch each task takes a slot
    exactly once and is answered exactly once: the execution is a
    rearrangement of one acquisition and one answer per key, so it has
    twice as many events as the batch has keys. *)
Theorem lote_execution_events (cfg : config) (clients : nat -> upstream)
    (dnis : list Py.str) (evs : list event) (r : outcome lote * list request) :
  aceptado dnis = true ->
  consultar_lote cfg clients dnis evs = Some r ->
  evs ≡ₚ eventos (length dnis) /\ length evs = 2 * length dnis.
Proof.
  intros Hac Hr.
  destruct (consultar_lote_aceptado _ _ _ _ _ Hac Hr) as (s & res & Hrun & Hg & ->).
  destruct (gather_counts _ _ Hg) as (_ & _ & Hp).
  pose proof (run_pendiente _ _ _ _ _ _ Hrun) as Hlen.
  rewrite pendiente_inicial in Hlen. unfold pendiente in Hlen.
  rewrite Hp in Hlen.
  destruct (run_events _ _ _ _ _ _ Hrun) as (Hnd & Ha & Hre).
  split; [|lia].
  apply submseteq_length_Permutation.
  - apply NoDup_submseteq; [done|]. intros e He. unfold eventos.
    apply elem_of_app.
    assert (Hlt : forall i t, tareas (inicial 5 dnis) !! i = Some t ->
                              i < length dnis).
    { intros i t Hi%lookup_lt_Some. simpl in Hi. by rewrite length_fmap in Hi. }
    destruct e as [i|i]; [left | right]; apply list_elem_of_fmap_2, elem_of_seq.
    + specialize (Hlt _ _ (Ha _ He)). lia.
    + destruct (Hre _ He) as [Hx|Hx]; specialize (Hlt _ _ Hx); lia.
  - unfold eventos. rewrite length_app, !length_fmap, !length_seq. lia.
Qed.

Lemma lote_execution_events_witness :
  aceptado Sample.lote_2 = true
  /\ Sample.cruzado ≡ₚ eventos (length Sample.lote_2)
  /\ length Sample.cruzado = 2 * length Sample.lote_2.
Proof.
  split; [reflexivity|].
  exact (lote_execution_events Sample.con_token Sample.siempre Sample.lote_2
           Sample.cruzado _ eq_refl eq_refl).
Defined.

Lemma consultar_uno_ok_iff (cfg : config) (client : upstream) (d : Py.str) :
  item_status (consultar_uno cfg client d) = Py.lit "ok"
  <-> exito (client (peticion cfg d)) = true.
Proof.
  unfold consultar_uno, exito, raise_for_status, response_json.
  destruct (client (peticion cfg d)) as [r|e]; simpl; [|done].
  destruct (is_success r); simpl; [|done].
  by destruct (json_body r).
Qed.

(** X12: in the response of a dispatched batch the entry of a key has
    status "ok" exactly when the request of that position was answered with
    a 2xx status and a decodable body; so when every request ends well,
    every entry is ok. *)
Theorem lote_entry_ok_iff_exito (cfg : config) (clients : nat -> upstream)
    (dnis : list Py.str) (evs : list event) (r : outcome lote * list request) :
  aceptado dnis = true ->
  consultar_lote cfg clients dnis evs = Some r ->
  exists res,
    r.1 = Returns {| total := length dnis; resultados := res |}
    /\ (forall i d, dnis !! i = Some d ->
          exists it, res !! i = Some it
            /\ (item_status it = Py.lit "ok"
                <-> exito (clients i (peticion cfg d)) = true))
    /\ ((forall i d, dnis !! i = Some d ->
           exito (clients i (peticion cfg d)) = true) ->
        Forall (fun it => item_status it = Py.lit "ok") res).
Proof.
  intros Hac Hr.
  destruct (consultar_lote_aceptado _ _ _ _ _ Hac Hr) as (s & res & Hrun & Hg & ->).
  pose proof (run_invariante _ _ _ 5 _ _ _ (inicial_invariante _ _ _ 5) Hrun) as Hinv.
  destruct (gather_invariante _ _ _ _ _ _ Hinv Hg) as (Hres & _ & _).
  assert (Hlen : length res = length dnis) by (by rewrite Hres, length_imap).
  exists res. simpl. rewrite Hlen. split; [done|]. split.
  - intros i d Hd. exists (consultar_uno cfg (clients i) d).
    split; [by rewrite Hres, list_lookup_imap, Hd|].
    apply consultar_uno_ok_iff.
  - intros Hall. apply Forall_lookup. intros i it Hi.
    rewrite Hres, list_lookup_imap in Hi.
    destruct (dnis !! i) as [d|] eqn:Hd; simplify_eq/=.
    apply consultar_uno_ok_iff, (Hall _ _ Hd).
Qed.

Lemma lote_entry_ok_iff_exito_witness :
  aceptado Sample.lote_2 = true
  /\ exists res,
       Sample.esperado_falla_1.1
       = Returns {| total := length Sample.lote_2; resultados := res |}
       /\ forall i d, Sample.lote_2 !! i = Some d ->
            exists it, res !! i = Some it
              /\ (item_status it = Py.lit "ok"
                  <-> exito (Sample.falla_1 i (peticion Sample.con_token d)) = true).
Proof.
  split; [reflexivity|].
  destruct (lote_entry_ok_iff_exito Sample.con_token Sample.falla_1
              Sample.lote_2 Sample.cruzado _ eq_refl eq_refl)
    as (res & H1 & H2 & _).
  exists res. split; assumption.
Defined.

(** X13: the entry of a position depends on the answer to that position's
    request and on nothing else: two executions of the same batch, under
    any two schedules and any two providers that answer the request of
    position [i] alike, give the same entry at position [i], whatever the
    other requests met. *)
Theorem lote_entries_isolated (cfg : config) (clients1 clients2 : nat -> upstream)
    (dnis : list Py.str) (evs1 evs2 : list event)
    (l1 l2 : lote) (calls1 calls2 : list request) (i : nat) (d : Py.str) :
  consultar_lote cfg clients1 dnis evs1 = Some (Returns l1, calls1) ->
  consultar_lote cfg clients2 dnis evs2 = Some (Returns l2, calls2) ->
  dnis !! i = Some d ->
  clients1 i (peticion cfg d) = clients2 i (peticion cfg d) ->
  resultados l1 !! i = resultados l2 !! i
  /\ is_Some (resultados l1 !! i)
  /\ total l1 = total l2.
Proof.
  intros H1 H2 Hd Heq.
  assert (Hac : aceptado dnis = true).
  { destruct (aceptado dnis) eqn:Hac; [done|]. exfalso.
    unfold consultar_lote in H1.
    destruct (20 <? length dnis) eqn:Hc; [by simplify_eq|].
    destruct (invalidos dnis) as [|x l] eqn:Hi; [|by simplify_eq].
    assert (aceptado dnis = true); [|congruence].
    apply aceptado_spec. by apply Nat.ltb_ge in Hc. }
  destruct (consultar_lote_aceptado _ _ _ _ _ Hac H1) as (s1 & r1 & Hrun1 & Hg1 & E1).
  destruct (consultar_lote_aceptado _ _ _ _ _ Hac H2) as (s2 & r2 & Hrun2 & Hg2 & E2).
  pose proof (run_invariante _ _ _ 5 _ _ _ (inicial_invariante _ _ _ 5) Hrun1) as Hi1.
  pose proof (run_invariante _ _ _ 5 _ _ _ (inicial_invariante _ _ _ 5) Hrun2) as Hi2.
  destruct (gather_invariante _ _ _ _ _ _ Hi1 Hg1) as (Hr1 & _ & _).
  destruct (gather_invariante _ _ _ _ _ _ Hi2 Hg2) as (Hr2 & _ & _).
  simplify_eq/=.
  rewrite !list_lookup_imap, Hd. simpl.
  unfold consultar_uno. rewrite Heq. split; [done|]. split; [eauto|].
  by rewrite !length_imap.
Qed.

Lemma lote_entries_isolated_witness :
  resultados {| total := 2;
                resultados := [ItemOk Sample.k1 (Sample.doc Sample.k1);
                               ItemOk Sample.k2 (Sample.doc Sample.k2)] |} !! 0
  = resultados {| total := 2;
                  resultados := [ItemOk Sample.k1 (Sample.doc Sample.k1);
                                 ItemError Sample.k2 (Py.lit "timed out")] |} !! 0.
Proof.
  exact (proj1 (lote_entries_isolated Sample.con_token Sample.siempre
                  Sample.falla_1 Sample.lote_2 Sample.cruzado Sample.en_serie
                  _ _ _ _ 0 Sample.k1 eq_refl eq_refl eq_refl eq_refl)).
Defined.

(** X14: a batch call ends in one of two ways, decided by the batch alone.
    A batch over the cap or with a key that fails the check is refused with
    400 and nothing is sent; any other batch returns, with [total] equal to
    the number of keys and of entries, at most 20, and as many requests
    sent.  The batch handler never lets an exception through and raises no
    other status. *)
Theorem lote_outcomes (cfg : config) (clients : nat -> upstream)
    (dnis : list Py.str) (evs : list event) (r : outcome lote * list request) :
  consultar_lote cfg clients dnis evs = Some r ->
  (aceptado dnis = false
   /\ exists e, r = (Raises e, []) /\ exc_status e = 400%Z)
  \/ (aceptado dnis = true
      /\ exists l, r.1 = Returns l
           /\ total l = length dnis
           /\ length (resultados l) = length dnis
           /\ length r.2 = length dnis
           /\ total l <= 20).
Proof.
  intros Hr. destruct (aceptado dnis) eqn:Hac.
  - right. split; [done|].
    destruct (consultar_lote_aceptado _ _ _ _ _ Hac Hr) as (s & res & Hrun & Hg & ->).
    pose proof (run_invariante _ _ _ 5 _ _ _ (inicial_invariante _ _ _ 5) Hrun) as Hinv.
    destruct (gather_invariante _ _ _ _ _ _ Hinv Hg) as (Hres & Hc & _).
    assert (Hlen : length res = length dnis) by (by rewrite Hres, length_imap).
    apply aceptado_spec in Hac as [Hcap _].
    eexists. split; [reflexivity|]. simpl. repeat split; try done; lia.
  - left. split; [done|]. unfold consultar_lote in Hr.
    destruct (20 <? length dnis) eqn:Hc.
    { simplify_eq. eexists. split; reflexivity. }
    destruct (invalidos dnis) as [|x l] eqn:Hi.
    { exfalso. assert (aceptado dnis = true); [|congruence].
      apply aceptado_spec. by apply Nat.ltb_ge in Hc. }
    simplify_eq. eexists. split; reflexivity.
Qed.

Lemma lote_outcomes_witness :
  aceptado Sample.lote_malo = false
  /\ exists e,
       consultar_lote Sample.con_token Sample.siempre Sample.lote_malo Sample.cruzado
       = Some (Raises e, [])
       /\ exc_status e = 400%Z.
Proof.
  split; [reflexivity|].
  destruct (lote_outcomes Sample.con_token Sample.siempre Sample.lote_malo
              Sample.cruzado _ eq_refl)
    as [(_ & e & He & Hs)|(H & _)]; [|discriminate H].
  exists e. split; [|exact Hs]. injection He as <-. reflexivity.
Defined.
